(** * covid19_modelling: the classes of [experiment1.ipynb]

    A shallow embedding of the notebook's [Location], [Individual] and
    [Population] classes, and the properties of the infection-pressure
    kernel and of the aggregate counts; then the column arithmetic of the
    data-preparation cells (proportions, merging of age groups).

    Conventions.
    - A Python [float] is a real number or NaN ([pyfloat]).  Rounding of
      IEEE doubles, overflow to an infinity, underflow to 0.0 and the
      [OverflowError] of [**] are not modelled: a statement about a
      returned value is about the exact real arithmetic that the code
      approximates.  A Python [int] is a [Z], a [bool] a [bool], an
      optional date ([int = None]) an [option Z].
    - A call either returns or raises: [result A].
    - A function body reads its free names from the module namespace at
      call time; the namespace is an association list from names to
      objects, as Python's [globals()] is a dict. *)

From Stdlib Require Import Reals Lra ZArith List String Bool Lia.
From Stdlib Require Import Permutation.
Import ListNotations.
Open Scope string_scope.
Open Scope R_scope.

(** ** Outcomes of a call *)

Inductive exn : Type :=
| NameError (name : string)
| AttributeError (attr : string)
| TypeError (msg : string).

Inductive result (A : Type) : Type :=
| Ok (a : A)
| Raise (e : exn).

Arguments Ok {A} a.
Arguments Raise {A} e.

Definition bind {A B : Type} (m : result A) (k : A -> result B) : result B :=
  match m with
  | Ok a => k a
  | Raise e => Raise e
  end.

Notation "x <- m ;; k" := (bind m (fun x => k))
  (at level 61, m at next level, right associativity).

(** ** Floats *)

Inductive pyfloat : Type :=
| Num (r : R)
| NaN.

Definition fmul (a b : pyfloat) : pyfloat :=
  match a, b with
  | Num u, Num v => Num (u * v)
  | _, _ => NaN
  end.

(** [scipy.stats.norm.pdf(x, loc=0, scale)]: the density of the normal
    distribution, [exp(-(x/scale)^2/2) / (sqrt(2*pi) * scale)]; scipy
    returns NaN where the argument check [scale > 0] fails. *)
Definition gauss (x scale : R) : R :=
  exp (- ((x / scale) * (x / scale)) / 2) / (sqrt (2 * PI) * scale).

Definition norm_pdf (x scale : R) : pyfloat :=
  if Rlt_dec 0 scale then Num (gauss x scale) else NaN.

(** ** Constants (cell 2) *)

Definition X_BOUNDARY : Z * Z := (0, 300000)%Z.
Definition Y_BOUNDARY : Z * Z := (0, 800000)%Z.
Definition POPULATION : Z := 67886011%Z.
Definition AVERAGE_TEMPRATURE : R := 15.
Definition VIRUS_LIFE_EXPECTANCY : R := 4.

(** ** Data model (cell 7) *)

Record Location : Type := mkLocation {
  x : R;
  y : R
}.

(** [Location.__init__]: two attribute assignments, nothing else. *)
Definition Location_init (x0 y0 : R) : result Location :=
  Ok {| x := x0; y := y0 |}.

Record Individual : Type := mkIndividual {
  location : Location;
  age : Z;
  is_infected : bool;
  infection_date : option Z;
  has_symptom : bool;
  symptom_date : option Z;
  is_dead : bool;
  death_date : option Z;
  vulnerability : R;
  mobility : R;
  immunity : R;
  infection_radius : R
}.

(** [Individual.__init__]: twelve attribute assignments, nothing else. *)
Definition Individual_init (location0 : Location) (age0 : Z)
    (is_infected0 : bool) (infection_date0 : option Z)
    (has_symptom0 : bool) (symptom_date0 : option Z)
    (is_dead0 : bool) (death_date0 : option Z)
    (vulnerability0 mobility0 immunity0 infection_radius0 : R)
  : result Individual :=
  Ok {| location := location0; age := age0;
        is_infected := is_infected0; infection_date := infection_date0;
        has_symptom := has_symptom0; symptom_date := symptom_date0;
        is_dead := is_dead0; death_date := death_date0;
        vulnerability := vulnerability0; mobility := mobility0;
        immunity := immunity0; infection_radius := infection_radius0 |}.

(** The defaults of [Individual.__init__]; the default location is the
    one [Location(0,0)] evaluated when the class body runs. *)
Definition default_location : result Location := Location_init 0 0.

Definition Individual_default (infection_radius0 : R) : result Individual :=
  l <- default_location ;;
  Individual_init l 40 false None false None false None
                  (1/2) (1/2) (1/2) infection_radius0.

(** ** The module namespace *)

Inductive pyobj : Type :=
| PyFloat (r : R)
| PyLocation (l : Location)
| PyIndividual (i : Individual)
| PyDistance (f : Location -> result R)   (* callable: Location -> float *)
| PyRealFun (f : R -> R)                  (* callable: float -> float *)
| PyOther.                                (* module, data frame, class, ... *)

Definition namespace : Type := list (string * pyobj).

Fixpoint load_global (g : namespace) (name : string) : result pyobj :=
  match g with
  | [] => Raise (NameError name)
  | (n, o) :: rest => if String.eqb n name then Ok o else load_global rest name
  end.

(** Every name the notebook's cells bind at module level, in order of
    first binding.  Python falls back on the builtins for a name that is
    not here; the builtins have no [cal_distance], [sqrt] or [self]. *)
Definition notebook_globals : namespace :=
  [ ("np", PyOther); ("pd", PyOther); ("typing", PyOther); ("norm", PyOther);
    ("X_BOUNDARY", PyOther); ("Y_BOUNDARY", PyOther); ("POPULATION", PyOther);
    ("AVERAGE_TEMPRATURE", PyFloat AVERAGE_TEMPRATURE);
    ("VIRUS_LIFE_EXPECTANCY", PyFloat VIRUS_LIFE_EXPECTANCY);
    ("city_population", PyOther); ("columns", PyOther);
    ("population_distribution", PyOther);
    ("age_groups", PyOther); ("age_distribution", PyOther);
    ("Location", PyOther); ("Individual", PyOther); ("Population", PyOther);
    ("x", PyOther) ].

(** Attribute reads [o.x] and [o.y]: only a [Location] has them. *)
Definition getattr_x (o : pyobj) : result R :=
  match o with
  | PyLocation l => Ok (x l)
  | _ => Raise (AttributeError "x")
  end.

Definition getattr_y (o : pyobj) : result R :=
  match o with
  | PyLocation l => Ok (y l)
  | _ => Raise (AttributeError "y")
  end.

Definition call_real (o : pyobj) (v : R) : result R :=
  match o with
  | PyRealFun f => Ok (f v)
  | _ => Raise (TypeError "not callable on a float")
  end.

Definition call_distance (o : pyobj) (l : Location) : result R :=
  match o with
  | PyDistance f => f l
  | _ => Raise (TypeError "not callable on a Location")
  end.

Section Methods.

Variable g : namespace.

(** [Individual.cal_distance]: declared with the single parameter
    [location]; [sqrt] and [self] are free names of its body. *)
Definition cal_distance (location0 : Location) : result R :=
  fsqrt <- load_global g "sqrt" ;;
  self <- load_global g "self" ;;
  sx <- getattr_x self ;;
  sy <- getattr_y self ;;
  call_real fsqrt ((sx - x location0) * (sx - x location0)
                   + (sy - y location0) * (sy - y location0)).

(** [Individual.get_infection_pressure]: [cal_distance] is a free name
    of the body (not [self.cal_distance]). *)
Definition get_infection_pressure (self : Individual)
    (location0 : Location) (infectious_rate : R) : result pyfloat :=
  f <- load_global g "cal_distance" ;;
  mu <- call_distance f location0 ;;
  Ok (fmul (Num infectious_rate)
           (norm_pdf mu (infection_radius self * 3))).

End Methods.

(** A namespace in which the three free names of the two methods are
    bound: the notebook's names, then [from math import sqrt],
    [self = l] and [cal_distance = Individual.cal_distance]. *)
Definition distance_globals (l : Location) : namespace :=
  ("sqrt", PyRealFun sqrt) :: ("self", PyLocation l) :: notebook_globals.

Definition bound_globals (l : Location) : namespace :=
  ("cal_distance", PyDistance (cal_distance (distance_globals l)))
    :: distance_globals l.

(** ** Population *)

Record Population : Type := mkPopulation {
  population_location : Location;
  population_size : Z;
  individuals_list : list Individual;
  individuals_array : option (list pyfloat)
}.

Definition Population_init (population_location0 : Location)
    (population_size0 : Z) (individuals : list Individual)
  : result Population :=
  Ok {| population_location := population_location0;
        population_size := population_size0;
        individuals_list := individuals;
        individuals_array := None |}.

(** A method of [Population] runs on the object and hands it back. *)
Definition method (A : Type) : Type := Population -> A * Population.

Definition ret {A : Type} (a : A) : method A := fun self => (a, self).

Definition mbind {A B : Type} (m : method A) (k : A -> method B) : method B :=
  fun self => let (a, self') := m self in k a self'.

Definition read {A : Type} (field : Population -> A) : method A :=
  fun self => (field self, self).

(** [for individual in items: acc = body individual acc] *)
Fixpoint for_in {A : Type} (items : list Individual)
    (body : Individual -> A -> method A) (acc : A) : method A :=
  match items with
  | [] => ret acc
  | individual :: rest =>
      mbind (body individual acc) (fun acc' => for_in rest body acc')
  end.

(** [count += flag] with [count] an int and [flag] a bool. *)
Definition add_flag (count : Z) (flag : bool) : Z := (count + Z.b2z flag)%Z.

Definition get_infected_count : method Z :=
  mbind (read individuals_list) (fun items =>
  for_in items
    (fun individual infected_count =>
       ret (add_flag infected_count (is_infected individual))) 0%Z).

Definition get_has_symptom_count : method Z :=
  mbind (read individuals_list) (fun items =>
  for_in items
    (fun individual has_symptom_count =>
       ret (add_flag has_symptom_count (has_symptom individual))) 0%Z).

Definition get_death_count : method Z :=
  mbind (read individuals_list) (fun items =>
  for_in items
    (fun individual death_count =>
       ret (add_flag death_count (is_dead individual))) 0%Z).

(** The number of entries of a list that satisfy a flag. *)
Definition number_of (flag : Individual -> bool) (l : list Individual) : Z :=
  Z.of_nat (List.length (filter flag l)).

(** Modelled from the spec: the aggregate pressure at a location, "the sum
    over infectious individuals" of their contributions (section 4.2); the
    notebook has no function that sums the contributions.  An individual
    counts as infectious when its [is_infected] flag is set. *)
Fixpoint aggregate_pressure (g : namespace) (individuals : list Individual)
    (location0 : Location) (infectious_rate : R) : result pyfloat :=
  match individuals with
  | [] => Ok (Num 0)
  | i :: rest =>
      if is_infected i then
        p <- get_infection_pressure g i location0 infectious_rate ;;
        s <- aggregate_pressure g rest location0 infectious_rate ;;
        Ok (match p, s with Num u, Num v => Num (u + v) | _, _ => NaN end)
      else aggregate_pressure g rest location0 infectious_rate
  end.

(** World bounds of a location, from [X_BOUNDARY] and [Y_BOUNDARY]. *)
Definition in_world (l : Location) : Prop :=
  IZR (fst X_BOUNDARY) <= x l <= IZR (snd X_BOUNDARY) /\
  IZR (fst Y_BOUNDARY) <= y l <= IZR (snd Y_BOUNDARY).


(** The scenario of section 8: an Infected-Asymptomatic individual with
    [infection_radius = 2], infected at step 0, standing at the origin. *)
Definition origin : Location := {| x := 0; y := 0 |}.

Definition carrier : Individual :=
  {| location := origin; age := 40;
     is_infected := true; infection_date := Some 0%Z;
     has_symptom := false; symptom_date := None;
     is_dead := false; death_date := None;
     vulnerability := 1 / 2; mobility := 1 / 2; immunity := 1 / 2;
     infection_radius := 2 |}.

(** The namespace [g] after [cal_distance = Individual.cal_distance]: the
    function reads its own free names from [g]. *)
Definition method_globals (g : namespace) : namespace :=
  ("cal_distance", PyDistance (cal_distance g)) :: g.

(** ** Attribute access by name *)

Inductive attr : Type :=
| AttrLocation (l : Location)
| AttrInt (z : Z)
| AttrBool (b : bool)
| AttrDate (d : option Z)
| AttrFloat (r : R).

(** [self.<name>] on an Individual: the twelve attributes [__init__]
    sets and no other (the class defines no [__getattr__]; its methods
    are not attributes [get_individual_array] reads). *)
Definition Individual_getattr (self : Individual) (name : string)
  : result attr :=
  if name =? "location" then Ok (AttrLocation (location self))
  else if name =? "age" then Ok (AttrInt (age self))
  else if name =? "is_infected" then Ok (AttrBool (is_infected self))
  else if name =? "infection_date" then Ok (AttrDate (infection_date self))
  else if name =? "has_symptom" then Ok (AttrBool (has_symptom self))
  else if name =? "symptom_date" then Ok (AttrDate (symptom_date self))
  else if name =? "is_dead" then Ok (AttrBool (is_dead self))
  else if name =? "death_date" then Ok (AttrDate (death_date self))
  else if name =? "vulnerability" then Ok (AttrFloat (vulnerability self))
  else if name =? "mobility" then Ok (AttrFloat (mobility self))
  else if name =? "immunity" then Ok (AttrFloat (immunity self))
  else if name =? "infection_radius" then
    Ok (AttrFloat (infection_radius self))
  else Raise (AttributeError name).

(** [o.<name>] on an attribute value: a Location has [x] and [y]. *)
Definition getattr (o : attr) (name : string) : result attr :=
  match o with
  | AttrLocation l =>
      if name =? "x" then Ok (AttrFloat (x l))
      else if name =? "y" then Ok (AttrFloat (y l))
      else Raise (AttributeError name)
  | _ => Raise (AttributeError name)
  end.

(** The arguments of a call are evaluated from left to right; the first
    one that raises ends the evaluation. *)
Fixpoint eval_args (args : list (result attr)) : result (list attr) :=
  match args with
  | [] => Ok []
  | a :: rest => v <- a ;; vs <- eval_args rest ;; Ok (v :: vs)
  end.

Section IndividualArray.

(** The attribute lookup [<object>.array], on whatever object the name
    [np] is bound to: numpy's callable when the object has one, an error
    otherwise.  It is numpy's, not the notebook's. *)
Variable getattr_array : pyobj -> result (list attr -> result (list attr)).

(** [Individual.get_individual_array]: [np] is looked up, then its
    attribute [array], then the arguments from left to right; the third
    argument reads [self.ago]. *)
Definition get_individual_array (g : namespace) (self : Individual)
  : result (list attr) :=
  np <- load_global g "np" ;;
  np_array <- getattr_array np ;;
  args <- eval_args
    [ (l <- Individual_getattr self "location" ;; getattr l "x");
      (l <- Individual_getattr self "location" ;; getattr l "y");
      Individual_getattr self "ago";
      Individual_getattr self "is_infected";
      Individual_getattr self "infection_date";
      Individual_getattr self "has_symptom";
      Individual_getattr self "symptom_date";
      Individual_getattr self "is_dead";
      Individual_getattr self "death_date";
      Individual_getattr self "vulnerability";
      Individual_getattr self "mobility";
      Individual_getattr self "immunity";
      Individual_getattr self "infection_radius" ] ;;
  np_array args.

End IndividualArray.

(** ** Data preparation (cells 3 and 4)

    A column of integers read from a table is a [list Z]; a table is the
    list of its columns in order, each with its label.  Column labels are
    taken to be distinct, as [read_csv] makes them. *)

(** The outcome of a true division of integers in numpy: a number, an
    infinity (a nonzero value divided by zero) or NaN (zero divided by
    zero); numpy warns and does not raise. *)
Inductive npfloat : Type :=
| Finite (r : R)
| Infinite (negative : bool)
| NotANumber.

Definition true_divide (a b : Z) : npfloat :=
  if (b =? 0)%Z then
    if (a =? 0)%Z then NotANumber else Infinite (a <? 0)%Z
  else Finite (IZR a / IZR b).

(** The builtin [sum] over a column: Python integers, added from the
    left, starting from 0. *)
Definition total (values : list Z) : Z := fold_left Z.add values 0%Z.

(** Cell 3: [population / sum(population)]. *)
Definition proportion (population : list Z) : list npfloat :=
  map (fun p => true_divide p (total population)) population.

(** The sum of the numbers in a list of quotients; [None] when one of
    them is not a number. *)
Fixpoint finite_sum (qs : list npfloat) : option R :=
  match qs with
  | [] => Some 0
  | Finite r :: rest =>
      match finite_sum rest with
      | Some s => Some (r + s)
      | None => None
      end
  | _ :: _ => None
  end.

Definition frame : Type := list (string * list Z).

Inductive lookup (A : Type) : Type :=
| Found (a : A)
| KeyError (labels : list string).

Arguments Found {A} a.
Arguments KeyError {A} labels.

Definition lbind {A B : Type} (m : lookup A) (k : A -> lookup B) : lookup B :=
  match m with
  | Found a => k a
  | KeyError labels => KeyError labels
  end.

Notation "x <~ m ;; k" := (lbind m (fun x => k))
  (at level 61, m at next level, right associativity).

Definition has_column (df : frame) (label : string) : bool :=
  existsb (fun c => fst c =? label) df.

(** [df[label]] *)
Fixpoint frame_get (df : frame) (label : string) : lookup (list Z) :=
  match df with
  | [] => KeyError [label]
  | (n, col) :: rest => if n =? label then Found col else frame_get rest label
  end.

(** [df[label] = col]: an existing column is replaced where it stands, a
    new one is appended as the last column. *)
Definition frame_set (df : frame) (label : string) (col : list Z) : frame :=
  if has_column df label then
    map (fun c => if fst c =? label then (label, col) else c) df
  else (df ++ [(label, col)])%list.

(** Addition of 64-bit integers wraps around. *)
Definition wrap_int64 (z : Z) : Z :=
  ((z + 2 ^ 63) mod 2 ^ 64 - 2 ^ 63)%Z.

(** [a + b] on two columns of the same table: element by element. *)
Definition series_add (a b : list Z) : list Z :=
  map (fun p => wrap_int64 (fst p + snd p)) (combine a b).

(** [df.drop(columns=labels)]: [KeyError] with the labels that are not
    columns, if any; otherwise the table without these columns. *)
Definition frame_drop (df : frame) (labels : list string) : lookup frame :=
  match filter (fun l => negb (has_column df l)) labels with
  | [] => Found (filter (fun c => negb (existsb (String.eqb (fst c)) labels)) df)
  | missing => KeyError missing
  end.

Definition merged_columns : list string :=
  ["Age 5 to 7"; "Age 8 to 9"; "Age 15"; "Age 16 to 17"; "Age 18 to 19"].

(** Cell 4, the three statements that merge the age groups 5-7 and 8-9
    into 5-9, and 15, 16-17 and 18-19 into 15-19. *)
Definition regroup (age_groups : frame) : lookup frame :=
  a <~ frame_get age_groups "Age 5 to 7" ;;
  b <~ frame_get age_groups "Age 8 to 9" ;;
  let age_groups1 := frame_set age_groups "Age 5 to 9" (series_add a b) in
  c <~ frame_get age_groups1 "Age 15" ;;
  d <~ frame_get age_groups1 "Age 16 to 17" ;;
  e <~ frame_get age_groups1 "Age 18 to 19" ;;
  let age_groups2 :=
    frame_set age_groups1 "Age 15 to 19" (series_add (series_add c d) e) in
  frame_drop age_groups2 merged_columns.

(** The number of people a table accounts for: the sum of all its
    entries. *)
Definition grand_total (df : frame) : Z :=
  fold_right (fun c acc => (total (snd c) + acc)%Z) 0%Z df.

(** A table of [n] rows whose entries are counts below [2^61]. *)
Definition counts_table (n : nat) (df : frame) : Prop :=
  Forall (fun c => List.length (snd c) = n
                   /\ Forall (fun v => (0 <= v < 2 ^ 61)%Z) (snd c)) df.

(** A small table with the five columns [regroup] merges, two rows. *)
Definition sample_table : frame :=
  [ ("Age 0 to 4", [10; 20]%Z); ("Age 5 to 7", [1; 2]%Z);
    ("Age 8 to 9", [3; 4]%Z); ("Age 10 to 14", [5; 6]%Z);
    ("Age 15", [7; 8]%Z); ("Age 16 to 17", [9; 10]%Z);
    ("Age 18 to 19", [11; 12]%Z); ("Age 20 to 24", [13; 14]%Z) ].

Definition sample_regrouped : frame :=
  [ ("Age 0 to 4", [10; 20]%Z); ("Age 10 to 14", [5; 6]%Z);
    ("Age 20 to 24", [13; 14]%Z); ("Age 5 to 9", [4; 6]%Z);
    ("Age 15 to 19", [27; 30]%Z) ].

(** * Properties *)

(** ** The normal density *)

Lemma sqrt_2PI_pos : 0 < sqrt (2 * PI).
Proof.
  apply sqrt_lt_R0. pose proof PI_RGT_0. lra.
Qed.

Lemma gauss_pos (v scale : R) : 0 < scale -> 0 < gauss v scale.
Proof.
  intros Hs. unfold gauss.
  apply Rdiv_lt_0_compat.
  - apply exp_pos.
  - apply Rmult_lt_0_compat; [apply sqrt_2PI_pos | exact Hs].
Qed.

Lemma gauss_at_0 (scale : R) :
  0 < scale -> gauss 0 scale = 1 / (scale * sqrt (2 * PI)).
Proof.
  intros Hs. unfold gauss.
  replace (- (0 / scale * (0 / scale)) / 2) with 0 by (field; lra).
  rewrite exp_0. pose proof sqrt_2PI_pos. field. lra.
Qed.

Lemma exp_le (a b : R) : a <= b -> exp a <= exp b.
Proof.
  intros [Hlt | Heq].
  - left. apply exp_increasing. exact Hlt.
  - subst. right. reflexivity.
Qed.

Lemma gauss_antitone (a b scale : R) :
  0 < scale -> 0 <= a -> a <= b -> gauss b scale <= gauss a scale.
Proof.
  intros Hs Ha Hab. unfold gauss.
  pose proof sqrt_2PI_pos as Hq.
  assert (Hden : 0 < sqrt (2 * PI) * scale) by (apply Rmult_lt_0_compat; lra).
  apply Rmult_le_compat_r.
  - left. apply Rinv_0_lt_compat. exact Hden.
  - apply exp_le.
    assert (Hdiv : 0 <= a / scale <= b / scale).
    { split.
      - apply Rmult_le_pos; [lra | left; apply Rinv_0_lt_compat; lra].
      - apply Rmult_le_compat_r; [left; apply Rinv_0_lt_compat; lra | lra]. }
    nra.
Qed.

Lemma gauss_le_peak (v scale : R) :
  0 < scale -> gauss v scale <= 1 / (scale * sqrt (2 * PI)).
Proof.
  intros Hs. rewrite <- (gauss_at_0 scale Hs). unfold gauss.
  pose proof sqrt_2PI_pos as Hq.
  apply Rmult_le_compat_r.
  - left. apply Rinv_0_lt_compat. apply Rmult_lt_0_compat; lra.
  - apply exp_le.
    replace (- (0 / scale * (0 / scale)) / 2) with 0 by (field; lra).
    pose proof (Rle_0_sqr (v / scale)) as Hsq. unfold Rsqr in Hsq. lra.
Qed.

Lemma PI_bounds : 314 / 100 < PI < 315 / 100.
Proof.
  pose proof (PI_2_3_7_ineq 1) as H.
  unfold PI_2_3_7_tg, tg_alt, Ratan_seq in H. simpl in H.
  lra.
Qed.

Lemma sqrt_between (a b c : R) :
  0 <= a -> 0 <= b -> a * a < c -> c < b * b -> a < sqrt c < b.
Proof.
  intros Ha Hb H1 H2. split.
  - rewrite <- (sqrt_square a Ha). apply sqrt_lt_1; nra.
  - rewrite <- (sqrt_square b Hb). apply sqrt_lt_1; nra.
Qed.

(** The "fixed literal (~0.0665)" of the scenario. *)
Lemma peak_scale_6_value :
  664 / 10000 < 1 / (6 * sqrt (2 * PI)) < 666 / 10000.
Proof.
  pose proof PI_bounds as [Hl Hu].
  assert (Hs : 2505 / 1000 < sqrt (2 * PI) < 251 / 100)
    by (apply sqrt_between; lra).
  destruct Hs as [H1 H2].
  assert (E : 1 / (6 * sqrt (2 * PI)) * (6 * sqrt (2 * PI)) = 1)
    by (field; lra).
  split; apply Rmult_lt_reg_r with (6 * sqrt (2 * PI)); try lra;
    rewrite E; lra.
Qed.

(** ** Name resolution in the two methods *)

(** In the notebook's namespace the call [cal_distance(location)] finds no
    binding: the method raises before it computes anything. *)
Lemma get_infection_pressure_notebook (self : Individual)
    (location0 : Location) (infectious_rate : R) :
  get_infection_pressure notebook_globals self location0 infectious_rate
  = Raise (NameError "cal_distance").
Proof. reflexivity. Qed.

Lemma cal_distance_notebook (location0 : Location) :
  cal_distance notebook_globals location0 = Raise (NameError "sqrt").
Proof. reflexivity. Qed.

(** Binding [self] to the individual, as a method call would, does not
    help: an [Individual] has no attribute [x] (its coordinates are
    [self.location.x] and [self.location.y]). *)
Lemma cal_distance_self_individual (i : Individual) (location0 : Location) :
  cal_distance (("sqrt", PyRealFun sqrt) :: ("self", PyIndividual i)
                  :: notebook_globals) location0
  = Raise (AttributeError "x").
Proof. reflexivity. Qed.

(** The Euclidean distance the body of [cal_distance] computes once its
    free names are bound. *)
Lemma cal_distance_bound (l location0 : Location) :
  cal_distance (distance_globals l) location0
  = Ok (sqrt ((x l - x location0) * (x l - x location0)
              + (y l - y location0) * (y l - y location0))).
Proof. reflexivity. Qed.

Lemma cal_distance_nonneg (l location0 : Location) (d : R) :
  cal_distance (distance_globals l) location0 = Ok d -> 0 <= d.
Proof.
  rewrite cal_distance_bound. intros H. injection H as <-. apply sqrt_pos.
Qed.

Lemma cal_distance_self (l : Location) :
  cal_distance (distance_globals l) l = Ok 0.
Proof.
  rewrite cal_distance_bound. f_equal.
  replace ((x l - x l) * (x l - x l) + (y l - y l) * (y l - y l)) with 0
    by ring.
  apply sqrt_0.
Qed.

Lemma norm_pdf_pos_scale (v scale : R) :
  0 < scale -> norm_pdf v scale = Num (gauss v scale).
Proof.
  intros Hs. unfold norm_pdf. destruct (Rlt_dec 0 scale); [reflexivity | lra].
Qed.

Lemma norm_pdf_bad_scale (v scale : R) :
  scale <= 0 -> norm_pdf v scale = NaN.
Proof.
  intros Hs. unfold norm_pdf. destruct (Rlt_dec 0 scale); [lra | reflexivity].
Qed.

(** What the return statement yields when the distance call resolves. *)
Lemma get_infection_pressure_bound (l : Location) (self : Individual)
    (location0 : Location) (infectious_rate d : R) :
  0 < infection_radius self ->
  cal_distance (distance_globals l) location0 = Ok d ->
  get_infection_pressure (bound_globals l) self location0 infectious_rate
  = Ok (Num (infectious_rate * gauss d (infection_radius self * 3))).
Proof.
  intros Hr Hd. unfold get_infection_pressure, bound_globals.
  cbn [load_global String.eqb Ascii.eqb Bool.eqb bind call_distance].
  rewrite Hd. cbn [bind].
  rewrite norm_pdf_pos_scale by lra. reflexivity.
Qed.

(** With [infection_radius <= 0] the kernel scale fails scipy's argument
    check and the density is NaN, whatever the distance. *)
Lemma get_infection_pressure_bad_radius (l : Location) (self : Individual)
    (location0 : Location) (infectious_rate : R) :
  infection_radius self <= 0 ->
  get_infection_pressure (bound_globals l) self location0 infectious_rate
  = Ok NaN.
Proof.
  intros Hr. unfold get_infection_pressure, bound_globals.
  cbn [load_global String.eqb Ascii.eqb Bool.eqb bind call_distance].
  rewrite cal_distance_bound. cbn [bind].
  rewrite norm_pdf_bad_scale by lra. reflexivity.
Qed.

(** ** The counting loops *)

Lemma number_of_cons (flag : Individual -> bool) (i : Individual)
    (l : list Individual) :
  number_of flag (i :: l) = (Z.b2z (flag i) + number_of flag l)%Z.
Proof.
  unfold number_of. simpl. destruct (flag i); simpl Z.b2z.
  - cbn [List.length]. lia.
  - lia.
Qed.

Lemma for_in_add_flag (flag : Individual -> bool) (items : list Individual) :
  forall (acc : Z) (self : Population),
    for_in items (fun individual count => ret (add_flag count (flag individual)))
           acc self
    = ((acc + number_of flag items)%Z, self).
Proof.
  induction items as [| i rest IH]; intros acc self.
  - simpl. unfold ret, number_of. simpl. f_equal. lia.
  - cbn [for_in]. unfold mbind at 1. unfold ret at 1.
    rewrite IH, number_of_cons. unfold add_flag. f_equal. lia.
Qed.

Lemma get_infected_count_run (self : Population) :
  get_infected_count self = (number_of is_infected (individuals_list self), self).
Proof.
  unfold get_infected_count, mbind, read. apply for_in_add_flag.
Qed.

Lemma get_has_symptom_count_run (self : Population) :
  get_has_symptom_count self
  = (number_of has_symptom (individuals_list self), self).
Proof.
  unfold get_has_symptom_count, mbind, read. apply for_in_add_flag.
Qed.

Lemma get_death_count_run (self : Population) :
  get_death_count self = (number_of is_dead (individuals_list self), self).
Proof.
  unfold get_death_count, mbind, read. apply for_in_add_flag.
Qed.

Lemma aggregate_pressure_none_infected (g : namespace)
    (individuals : list Individual) (location0 : Location)
    (infectious_rate : R) :
  forallb (fun i => negb (is_infected i)) individuals = true ->
  aggregate_pressure g individuals location0 infectious_rate = Ok (Num 0).
Proof.
  induction individuals as [| i rest IH]; intros H.
  - reflexivity.
  - simpl in H. apply andb_true_iff in H as [Hi Hrest].
    simpl. destruct (is_infected i); [discriminate | auto].
Qed.

(** * The claims *)

(** C1. The carrier with [infection_radius = 2], queried at its own
    location with [infectious_rate = 1]: in the notebook's namespace the
    call raises [NameError] on the unbound name [cal_distance] and returns
    no value; once the method's free names are bound, the same body returns
    the normal density at 0 with scale 6, [1 / (6 * sqrt (2 * pi))], a
    number between 0.0664 and 0.0666. *)
Theorem pressure_at_own_location_radius_2 :
  get_infection_pressure notebook_globals carrier origin 1
    = Raise (NameError "cal_distance")
  /\ get_infection_pressure (bound_globals (location carrier)) carrier origin 1
    = Ok (Num (1 / (6 * sqrt (2 * PI))))
  /\ 664 / 10000 < 1 / (6 * sqrt (2 * PI)) < 666 / 10000.
Proof.
  split; [reflexivity | split; [| exact peak_scale_6_value]].
  rewrite (get_infection_pressure_bound _ _ _ _ 0).
  - simpl infection_radius. rewrite gauss_at_0 by lra.
    do 2 f_equal. pose proof sqrt_2PI_pos. field. lra.
  - simpl. lra.
  - apply cal_distance_self.
Qed.

(** C2. For [infection_radius > 0] and [infectious_rate >= 0]: in the
    notebook's namespace the call raises [NameError] and returns no value;
    with the free names bound the returned value is a number [v >= 0]; and
    a sum of contributions over a collection without infected individuals
    is 0 in every namespace. *)
Theorem pressure_nonnegative (self : Individual) (location0 : Location)
    (infectious_rate : R) :
  0 < infection_radius self ->
  0 <= infectious_rate ->
  get_infection_pressure notebook_globals self location0 infectious_rate
    = Raise (NameError "cal_distance")
  /\ (exists v : R,
        get_infection_pressure (bound_globals (location self)) self location0
                               infectious_rate = Ok (Num v)
        /\ 0 <= v)
  /\ (forall (g : namespace) (individuals : list Individual),
        forallb (fun i => negb (is_infected i)) individuals = true ->
        aggregate_pressure g individuals location0 infectious_rate
        = Ok (Num 0)).
Proof.
  intros Hr Hrate. split; [reflexivity | split].
  - eexists. split.
    + apply get_infection_pressure_bound; [exact Hr | apply cal_distance_bound].
    + apply Rmult_le_pos; [exact Hrate |].
      left. apply gauss_pos. lra.
  - intros g individuals H. apply aggregate_pressure_none_infected. exact H.
Qed.

Lemma pressure_nonnegative_witness :
  0 < infection_radius carrier /\ 0 <= 1 /\
  (get_infection_pressure notebook_globals carrier (mkLocation 3 4) 1
     = Raise (NameError "cal_distance")
   /\ (exists v : R,
         get_infection_pressure (bound_globals (location carrier)) carrier
                                (mkLocation 3 4) 1 = Ok (Num v)
         /\ 0 <= v)
   /\ (forall (g : namespace) (individuals : list Individual),
         forallb (fun i => negb (is_infected i)) individuals = true ->
         aggregate_pressure g individuals (mkLocation 3 4) 1 = Ok (Num 0))).
Proof.
  split; [simpl; lra | split; [lra |]].
  apply (pressure_nonnegative carrier (mkLocation 3 4) 1); simpl; lra.
Defined.

(** C3. For [infection_radius > 0], [infectious_rate >= 0] and two query
    locations at distances [d1 <= d2] from the individual: in the
    notebook's namespace both calls raise [NameError] and return no value;
    with the free names bound the value at the nearer location is at least
    the value at the farther one. *)
Theorem pressure_antitone_in_distance (self : Individual)
    (L1 L2 : Location) (infectious_rate d1 d2 : R) :
  0 < infection_radius self ->
  0 <= infectious_rate ->
  cal_distance (distance_globals (location self)) L1 = Ok d1 ->
  cal_distance (distance_globals (location self)) L2 = Ok d2 ->
  d1 <= d2 ->
  (get_infection_pressure notebook_globals self L1 infectious_rate
     = Raise (NameError "cal_distance")
   /\ get_infection_pressure notebook_globals self L2 infectious_rate
     = Raise (NameError "cal_distance"))
  /\ exists v1 v2 : R,
       get_infection_pressure (bound_globals (location self)) self L1
                              infectious_rate = Ok (Num v1)
       /\ get_infection_pressure (bound_globals (location self)) self L2
                                 infectious_rate = Ok (Num v2)
       /\ v2 <= v1.
Proof.
  intros Hr Hrate H1 H2 Hd. split; [split; reflexivity |].
  do 2 eexists. split; [| split].
  - apply get_infection_pressure_bound; eassumption.
  - apply get_infection_pressure_bound; eassumption.
  - apply Rmult_le_compat_l; [exact Hrate |].
    apply gauss_antitone; [lra | | exact Hd].
    eapply cal_distance_nonneg. exact H1.
Qed.

Lemma pressure_antitone_in_distance_witness :
  exists v1 v2 : R,
    get_infection_pressure (bound_globals (location carrier)) carrier origin 1
      = Ok (Num v1)
    /\ get_infection_pressure (bound_globals (location carrier)) carrier
                              (mkLocation 3 4) 1 = Ok (Num v2)
    /\ v2 <= v1.
Proof.
  apply (pressure_antitone_in_distance carrier origin (mkLocation 3 4) 1
           (sqrt ((0 - 0) * (0 - 0) + (0 - 0) * (0 - 0)))
           (sqrt ((0 - 3) * (0 - 3) + (0 - 4) * (0 - 4)))).
  - simpl. lra.
  - lra.
  - reflexivity.
  - reflexivity.
  - apply sqrt_le_1; lra.
Defined.

(** C4, as stated, fails: the carrier was infected at step 0; at step 10,
    more than [VIRUS_LIFE_EXPECTANCY] later, its contribution is not 0,
    neither in the notebook's namespace (the call raises) nor with the
    free names bound (the value is the full density [1 / (6 * sqrt (2 * pi))],
    which is positive). *)
Lemma pressure_not_cut_at_life_expectancy :
  infection_date carrier = Some 0%Z
  /\ IZR (10 - 0) >= VIRUS_LIFE_EXPECTANCY
  /\ get_infection_pressure notebook_globals carrier origin 1 <> Ok (Num 0)
  /\ get_infection_pressure (bound_globals (location carrier)) carrier origin 1
     <> Ok (Num 0).
Proof.
  split; [reflexivity | split; [| split]].
  - unfold VIRUS_LIFE_EXPECTANCY. simpl. lra.
  - discriminate.
  - rewrite (get_infection_pressure_bound _ _ _ _ 0).
    + intros H. injection H as H.
      pose proof (gauss_pos 0 (infection_radius carrier * 3)) as Hpos.
      simpl infection_radius in *. lra.
    + simpl. lra.
    + apply cal_distance_self.
Qed.

(** C4, amended. [get_infection_pressure] takes no time argument and
    reads neither [infection_date] nor [is_infected] nor
    [VIRUS_LIFE_EXPECTANCY].  In every namespace, two individuals with the
    same [infection_radius] give the same outcome at the same query
    location and rate, whatever their infection dates, flags and other
    fields; and rebinding the global [VIRUS_LIFE_EXPECTANCY] to any object
    leaves the outcome unchanged.  With the free names bound, the
    individual of radius 2 queried at its own location with rate 1
    contributes the full density [1 / (6 * sqrt (2 * pi))], a positive
    number, whatever its infection date and flag: the contribution is
    constant in elapsed time and is not cut to zero. *)
Theorem pressure_ignores_infection_time :
  (forall (g : namespace)
      (loc1 loc2 : Location) (age1 age2 : Z) (infected1 infected2 : bool)
      (infection_date1 infection_date2 : option Z)
      (symptom1 symptom2 : bool) (symptom_date1 symptom_date2 : option Z)
      (dead1 dead2 : bool) (death_date1 death_date2 : option Z)
      (v1 v2 m1 m2 i1 i2 radius : R)
      (location0 : Location) (infectious_rate : R),
      get_infection_pressure g
        (mkIndividual loc1 age1 infected1 infection_date1 symptom1
                      symptom_date1 dead1 death_date1 v1 m1 i1 radius)
        location0 infectious_rate
      = get_infection_pressure g
        (mkIndividual loc2 age2 infected2 infection_date2 symptom2
                      symptom_date2 dead2 death_date2 v2 m2 i2 radius)
        location0 infectious_rate)
  /\ (forall (g : namespace) (o : pyobj) (self : Individual)
        (location0 : Location) (infectious_rate : R),
        get_infection_pressure (("VIRUS_LIFE_EXPECTANCY", o) :: g) self
                               location0 infectious_rate
        = get_infection_pressure g self location0 infectious_rate)
  /\ (forall (infected : bool) (infection_date0 : option Z),
        get_infection_pressure (bound_globals origin)
          (mkIndividual origin 40 infected infection_date0 false None
                        false None (1 / 2) (1 / 2) (1 / 2) 2)
          origin 1
        = Ok (Num (1 / (6 * sqrt (2 * PI)))))
  /\ 0 < 1 / (6 * sqrt (2 * PI)).
Proof.
  split; [reflexivity | split; [reflexivity | split]].
  - intros infected infection_date0.
    rewrite (get_infection_pressure_bound _ _ _ _ 0).
    + simpl infection_radius. rewrite gauss_at_0 by lra.
      do 2 f_equal. pose proof sqrt_2PI_pos. field. lra.
    + simpl. lra.
    + apply cal_distance_self.
  - pose proof peak_scale_6_value. lra.
Qed.

(** C5. For [infection_radius > 0], queried at the individual's own
    location: in the notebook's namespace the call raises [NameError] and
    returns no value; with the free names bound it returns a number, equal
    to, hence bounded by, [infectious_rate / (3 * infection_radius *
    sqrt (2 * pi))]. *)
Theorem pressure_at_distance_zero_bounded (self : Individual)
    (infectious_rate : R) :
  0 < infection_radius self ->
  get_infection_pressure notebook_globals self (location self) infectious_rate
    = Raise (NameError "cal_distance")
  /\ exists v : R,
       get_infection_pressure (bound_globals (location self)) self
                              (location self) infectious_rate = Ok (Num v)
       /\ v <= infectious_rate / (3 * infection_radius self * sqrt (2 * PI)).
Proof.
  intros Hr. split; [reflexivity |].
  eexists. split.
  - apply get_infection_pressure_bound; [exact Hr | apply cal_distance_self].
  - rewrite gauss_at_0 by lra. right.
    pose proof sqrt_2PI_pos. field. lra.
Qed.

Lemma pressure_at_distance_zero_bounded_witness :
  0 < infection_radius carrier
  /\ exists v : R,
       get_infection_pressure (bound_globals (location carrier)) carrier
                              (location carrier) 1 = Ok (Num v)
       /\ v <= 1 / (3 * infection_radius carrier * sqrt (2 * PI)).
Proof.
  split; [simpl; lra |].
  apply (pressure_at_distance_zero_bounded carrier 1). simpl. lra.
Defined.

(** C6. Each count method returns the number of entries of
    [individuals_list] whose flag is set; a [Population] has no count
    field. *)
Theorem counts_recomputed_from_individuals (self : Population) :
  fst (get_infected_count self)
    = Z.of_nat (List.length (filter is_infected (individuals_list self)))
  /\ fst (get_has_symptom_count self)
    = Z.of_nat (List.length (filter has_symptom (individuals_list self)))
  /\ fst (get_death_count self)
    = Z.of_nat (List.length (filter is_dead (individuals_list self))).
Proof.
  rewrite get_infected_count_run, get_has_symptom_count_run,
    get_death_count_run.
  repeat split.
Qed.

(** C7, as stated, fails: the constructor called with the default
    arguments and [infection_radius = -1] returns an individual, whose
    [infection_radius] is -1. *)
Lemma negative_radius_accepted :
  exists i : Individual,
    Individual_default (-1) = Ok i
    /\ infection_radius i = -1
    /\ infection_radius i <= 0.
Proof.
  eexists. split; [reflexivity | split; simpl; lra].
Qed.

(** C7, amended. Creating an Individual never fails: for every
    [infection_radius], positive or not, the constructor returns an
    individual that stores the given value. *)
Theorem Individual_init_total (location0 : Location) (age0 : Z)
    (is_infected0 : bool) (infection_date0 : option Z)
    (has_symptom0 : bool) (symptom_date0 : option Z)
    (is_dead0 : bool) (death_date0 : option Z)
    (vulnerability0 mobility0 immunity0 infection_radius0 : R) :
  exists i : Individual,
    Individual_init location0 age0 is_infected0 infection_date0 has_symptom0
                    symptom_date0 is_dead0 death_date0 vulnerability0
                    mobility0 immunity0 infection_radius0 = Ok i
    /\ infection_radius i = infection_radius0.
Proof.
  eexists. split; reflexivity.
Qed.

(** C8. Each count method hands back the population it was called on:
    every field of the population and of its individuals is as before. *)
Theorem counts_leave_population_unchanged (self : Population) :
  snd (get_infected_count self) = self
  /\ snd (get_has_symptom_count self) = self
  /\ snd (get_death_count self) = self.
Proof.
  rewrite get_infected_count_run, get_has_symptom_count_run,
    get_death_count_run.
  repeat split.
Qed.

(** The constructor of [Location] performs no check of its own: given
    coordinates outside the world bounds it stores them all the same.  No
    statement of the notebook makes such a call. *)
Lemma location_outside_world :
  exists l : Location, Location_init (-1) 0 = Ok l /\ ~ in_world l.
Proof.
  eexists. split; [reflexivity |].
  unfold in_world. simpl. lra.
Qed.


(** C10. For [infection_radius > 0] and any scalar [c]: in the notebook's
    namespace the call raises [NameError] and returns no value; with the
    free names bound, the value at rate [c * r] is [c] times the value at
    rate [r], and the value at rate 0 is 0. *)
Theorem pressure_homogeneous_in_rate (self : Individual)
    (location0 : Location) (c r : R) :
  0 < infection_radius self ->
  get_infection_pressure notebook_globals self location0 (c * r)
    = Raise (NameError "cal_distance")
  /\ (exists v : R,
        get_infection_pressure (bound_globals (location self)) self location0 r
          = Ok (Num v)
        /\ get_infection_pressure (bound_globals (location self)) self
                                  location0 (c * r) = Ok (Num (c * v)))
  /\ get_infection_pressure (bound_globals (location self)) self location0 0
     = Ok (Num 0).
Proof.
  intros Hr. split; [reflexivity | split].
  - eexists. split.
    + apply get_infection_pressure_bound; [exact Hr | apply cal_distance_bound].
    + erewrite get_infection_pressure_bound;
        [| exact Hr | apply cal_distance_bound].
      do 2 f_equal. ring.
  - erewrite get_infection_pressure_bound;
      [| exact Hr | apply cal_distance_bound].
    do 2 f_equal. ring.
Qed.

Lemma pressure_homogeneous_in_rate_witness :
  0 < infection_radius carrier
  /\ get_infection_pressure notebook_globals carrier (mkLocation 3 4) (5 * 1)
     = Raise (NameError "cal_distance")
  /\ get_infection_pressure (bound_globals (location carrier)) carrier
                            (mkLocation 3 4) 0 = Ok (Num 0).
Proof.
  split; [simpl; lra |].
  pose proof (pressure_homogeneous_in_rate carrier (mkLocation 3 4) 5 1) as H.
  split; apply H; simpl; lra.
Defined.

(** * Further properties of the notebook's code *)

(** ** The counts of a population *)

Lemma number_of_bounds (flag : Individual -> bool) (l : list Individual) :
  (0 <= number_of flag l <= Z.of_nat (List.length l))%Z.
Proof.
  unfold number_of. pose proof (filter_length_le flag l). lia.
Qed.

Lemma number_of_app (flag : Individual -> bool) (l1 l2 : list Individual) :
  number_of flag (l1 ++ l2) = (number_of flag l1 + number_of flag l2)%Z.
Proof.
  unfold number_of. rewrite filter_app, length_app. lia.
Qed.

Lemma number_of_Permutation (flag : Individual -> bool)
    (l1 l2 : list Individual) :
  Permutation l1 l2 -> number_of flag l1 = number_of flag l2.
Proof.
  intros H. induction H as [| i l l' _ IH | i j l | l l' l'' _ IH1 _ IH2].
  - reflexivity.
  - rewrite !number_of_cons, IH. reflexivity.
  - rewrite !number_of_cons. lia.
  - congruence.
Qed.

Lemma number_of_zero (flag : Individual -> bool) (l : list Individual) :
  number_of flag l = 0%Z <-> (forall i, In i l -> flag i = false).
Proof.
  induction l as [| j rest IH].
  - split; [intros _ i [] | reflexivity].
  - rewrite number_of_cons. pose proof (number_of_bounds flag rest) as Hb.
    split.
    + intros H i [<- | Hin].
      * destruct (flag j); [cbn [Z.b2z] in H; lia | reflexivity].
      * apply IH; [| exact Hin]. destruct (flag j); cbn [Z.b2z] in H; lia.
    + intros H. rewrite (H j (or_introl eq_refl)). cbn [Z.b2z Z.add].
      apply IH. intros i Hin. apply H. right. exact Hin.
Qed.

Lemma number_of_full (flag : Individual -> bool) (l : list Individual) :
  number_of flag l = Z.of_nat (List.length l)
  <-> (forall i, In i l -> flag i = true).
Proof.
  induction l as [| j rest IH].
  - split; [intros _ i [] | reflexivity].
  - rewrite number_of_cons. pose proof (number_of_bounds flag rest) as Hb.
    cbn [List.length]. rewrite Nat2Z.inj_succ. split.
    + intros H i [<- | Hin].
      * destruct (flag j); [reflexivity | cbn [Z.b2z] in H; lia].
      * apply IH; [| exact Hin]. destruct (flag j); cbn [Z.b2z] in H; lia.
    + intros H. rewrite (H j (or_introl eq_refl)). cbn [Z.b2z].
      assert (Hrest : number_of flag rest = Z.of_nat (List.length rest)).
      { apply IH. intros i Hin. apply H. right. exact Hin. }
      lia.
Qed.

(** X1. Every count lies between 0 and the length of
    [individuals_list]. *)
Theorem counts_within_list_length (self : Population) :
  (0 <= fst (get_infected_count self)
     <= Z.of_nat (List.length (individuals_list self)))%Z
  /\ (0 <= fst (get_has_symptom_count self)
        <= Z.of_nat (List.length (individuals_list self)))%Z
  /\ (0 <= fst (get_death_count self)
        <= Z.of_nat (List.length (individuals_list self)))%Z.
Proof.
  rewrite get_infected_count_run, get_has_symptom_count_run,
    get_death_count_run.
  cbn [fst]. repeat split; apply number_of_bounds.
Qed.

(** X2. The counts of a population whose list is the concatenation of two
    lists are the sums of the counts of the two parts, whatever the other
    fields of the three populations. *)
Theorem counts_additive_over_concatenation
    (loc loc1 loc2 : Location) (n n1 n2 : Z)
    (a a1 a2 : option (list pyfloat)) (l1 l2 : list Individual) :
  let whole := mkPopulation loc n (l1 ++ l2) a in
  let part1 := mkPopulation loc1 n1 l1 a1 in
  let part2 := mkPopulation loc2 n2 l2 a2 in
  fst (get_infected_count whole)
    = (fst (get_infected_count part1) + fst (get_infected_count part2))%Z
  /\ fst (get_has_symptom_count whole)
    = (fst (get_has_symptom_count part1)
       + fst (get_has_symptom_count part2))%Z
  /\ fst (get_death_count whole)
    = (fst (get_death_count part1) + fst (get_death_count part2))%Z.
Proof.
  intros whole part1 part2.
  rewrite !get_infected_count_run, !get_has_symptom_count_run,
    !get_death_count_run.
  cbn [fst individuals_list whole part1 part2].
  repeat split; apply number_of_app.
Qed.

(** X3. The counts do not depend on the order of [individuals_list]: two
    populations whose lists are permutations of each other have the same
    three counts. *)
Theorem counts_invariant_under_permutation (p q : Population) :
  Permutation (individuals_list p) (individuals_list q) ->
  fst (get_infected_count p) = fst (get_infected_count q)
  /\ fst (get_has_symptom_count p) = fst (get_has_symptom_count q)
  /\ fst (get_death_count p) = fst (get_death_count q).
Proof.
  intros H.
  rewrite !get_infected_count_run, !get_has_symptom_count_run,
    !get_death_count_run.
  cbn [fst]. repeat split; apply number_of_Permutation; exact H.
Qed.

Lemma counts_invariant_under_permutation_witness :
  let healthy := mkIndividual origin 40 false None false None false None
                              (1 / 2) (1 / 2) (1 / 2) 2 in
  let p := mkPopulation origin 2 [carrier; healthy] None in
  let q := mkPopulation origin 2 [healthy; carrier] None in
  fst (get_infected_count p) = fst (get_infected_count q)
  /\ fst (get_has_symptom_count p) = fst (get_has_symptom_count q)
  /\ fst (get_death_count p) = fst (get_death_count q).
Proof.
  intros healthy p q.
  apply (counts_invariant_under_permutation p q).
  apply perm_swap.
Defined.

(** X4. A count is 0 exactly when no individual of the list has the flag,
    and equals the length of the list exactly when every individual has
    it (shown for the infected count and the death count). *)
Theorem count_extremes (self : Population) :
  (fst (get_infected_count self) = 0%Z
   <-> forall i, In i (individuals_list self) -> is_infected i = false)
  /\ (fst (get_infected_count self)
      = Z.of_nat (List.length (individuals_list self))
      <-> forall i, In i (individuals_list self) -> is_infected i = true)
  /\ (fst (get_death_count self) = 0%Z
      <-> forall i, In i (individuals_list self) -> is_dead i = false)
  /\ (fst (get_death_count self)
      = Z.of_nat (List.length (individuals_list self))
      <-> forall i, In i (individuals_list self) -> is_dead i = true).
Proof.
  rewrite get_infected_count_run, get_death_count_run. cbn [fst].
  repeat split;
    first [ apply number_of_zero | apply number_of_full ].
Qed.

(** X5. The counts can be taken in sequence on the same object: each call
    sees what a single call would see, the second call of a method
    returns what the first returned, and the object comes out as it went
    in. *)
Theorem counts_in_sequence (self : Population) :
  mbind get_infected_count (fun infected =>
  mbind get_has_symptom_count (fun symptomatic =>
  mbind get_death_count (fun dead =>
  mbind get_infected_count (fun infected_again =>
  ret (infected, symptomatic, dead, infected_again))))) self
  = ((fst (get_infected_count self), fst (get_has_symptom_count self),
      fst (get_death_count self), fst (get_infected_count self)), self).
Proof.
  unfold mbind at 1. rewrite get_infected_count_run.
  unfold mbind at 1. rewrite get_has_symptom_count_run.
  unfold mbind at 1. rewrite get_death_count_run.
  unfold mbind at 1. rewrite get_infected_count_run.
  reflexivity.
Qed.

(** X6. Replacing one individual of the list by another changes each
    count by the difference of the two individuals' flags, wherever the
    individual stands in the list: infecting a healthy individual raises
    the infected count by exactly 1 and leaves the other two counts
    alone. *)
Theorem counts_after_replacing_one (loc : Location) (n : Z)
    (a : option (list pyfloat)) (before after : list Individual)
    (i i' : Individual) :
  let p := mkPopulation loc n (before ++ i :: after) a in
  let p' := mkPopulation loc n (before ++ i' :: after) a in
  (fst (get_infected_count p') - fst (get_infected_count p)
   = Z.b2z (is_infected i') - Z.b2z (is_infected i))%Z
  /\ (fst (get_has_symptom_count p') - fst (get_has_symptom_count p)
      = Z.b2z (has_symptom i') - Z.b2z (has_symptom i))%Z
  /\ (fst (get_death_count p') - fst (get_death_count p)
      = Z.b2z (is_dead i') - Z.b2z (is_dead i))%Z.
Proof.
  intros p p'.
  rewrite !get_infected_count_run, !get_has_symptom_count_run,
    !get_death_count_run.
  cbn [fst individuals_list p p'].
  rewrite !number_of_app, !number_of_cons.
  repeat split; lia.
Qed.

(** X7. [Population.__init__] never fails and checks nothing:
    [population_size] is stored as given, whether or not it is the number
    of individuals, [individuals_array] starts as [None], and the counts
    of the new population are those of the list it was given, whatever
    [population_size] says. *)
Theorem Population_init_counts (loc : Location) (n : Z)
    (individuals : list Individual) :
  exists p : Population,
    Population_init loc n individuals = Ok p
    /\ population_size p = n
    /\ individuals_array p = None
    /\ fst (get_infected_count p)
       = Z.of_nat (List.length (filter is_infected individuals))
    /\ fst (get_has_symptom_count p)
       = Z.of_nat (List.length (filter has_symptom individuals))
    /\ fst (get_death_count p)
       = Z.of_nat (List.length (filter is_dead individuals)).
Proof.
  eexists. split; [reflexivity |].
  rewrite get_infected_count_run, get_has_symptom_count_run,
    get_death_count_run.
  repeat split.
Qed.

(** ** [get_individual_array] *)

(** X8. In the notebook, where [np] is numpy and [np.array] resolves,
    [get_individual_array] never returns an array: for every individual
    it raises [AttributeError] on [self.ago], the third argument, before
    [np.array] is called and whatever [np.array] would do. *)
Theorem get_individual_array_raises
    (getattr_array : pyobj -> result (list attr -> result (list attr)))
    (np_array : list attr -> result (list attr)) (self : Individual) :
  getattr_array PyOther = Ok np_array ->
  get_individual_array getattr_array notebook_globals self
  = Raise (AttributeError "ago").
Proof.
  intros Harray. unfold get_individual_array.
  cbn [notebook_globals load_global String.eqb Ascii.eqb Bool.eqb bind].
  rewrite Harray. reflexivity.
Qed.

Lemma get_individual_array_raises_witness :
  get_individual_array (fun _ => Ok (fun args => Ok args))
                       notebook_globals carrier
  = Raise (AttributeError "ago").
Proof.
  apply (get_individual_array_raises (fun _ => Ok (fun args => Ok args))
           (fun args => Ok args) carrier).
  reflexivity.
Defined.

(** ** [cal_distance] with its free names bound *)

Lemma sq_diff_le (u v m : R) :
  0 <= u <= m -> 0 <= v <= m -> (u - v) * (u - v) <= m * m.
Proof.
  intros Hu Hv.
  assert (H : 0 <= (m - (u - v)) * (m + (u - v)))
    by (apply Rmult_le_pos; lra).
  lra.
Qed.

(** X9. With [sqrt] and [self] bound, [cal_distance] is symmetric: the
    distance from [a] to [b] is the distance from [b] to [a]. *)
Theorem cal_distance_symmetric (a b : Location) :
  cal_distance (distance_globals a) b = cal_distance (distance_globals b) a.
Proof.
  rewrite !cal_distance_bound. do 2 f_equal. ring.
Qed.

(** X12. With [sqrt] and [self] bound, the distance between two locations
    inside the world bounds is at most the diagonal of the world: its
    square is at most [300000^2 + 800000^2]. *)
Theorem cal_distance_within_world (a b : Location) :
  in_world a -> in_world b ->
  exists d : R,
    cal_distance (distance_globals a) b = Ok d
    /\ 0 <= d
    /\ d * d <= IZR (snd X_BOUNDARY) * IZR (snd X_BOUNDARY)
                + IZR (snd Y_BOUNDARY) * IZR (snd Y_BOUNDARY).
Proof.
  unfold in_world. simpl. intros [Hax Hay] [Hbx Hby].
  eexists. split; [apply cal_distance_bound |].
  split; [apply sqrt_pos |].
  pose proof (Rle_0_sqr (x a - x b)) as Hx2.
  pose proof (Rle_0_sqr (y a - y b)) as Hy2.
  unfold Rsqr in Hx2, Hy2.
  rewrite sqrt_sqrt by lra.
  pose proof (sq_diff_le (x a) (x b) 300000 Hax Hbx).
  pose proof (sq_diff_le (y a) (y b) 800000 Hay Hby).
  lra.
Qed.

Lemma cal_distance_within_world_witness :
  exists d : R,
    cal_distance (distance_globals origin) (mkLocation 300000 800000) = Ok d
    /\ 0 <= d
    /\ d * d <= IZR (snd X_BOUNDARY) * IZR (snd X_BOUNDARY)
                + IZR (snd Y_BOUNDARY) * IZR (snd Y_BOUNDARY).
Proof.
  apply (cal_distance_within_world origin (mkLocation 300000 800000));
    unfold in_world; simpl; lra.
Defined.

(** ** [get_infection_pressure]: how it fails and what it returns *)

(** X14. Binding the bare name [cal_distance] to the class's function is
    not enough to make [get_infection_pressure] return: the call then
    raises [NameError] on [sqrt]; with [sqrt] bound as well, [NameError] on
    [self]; with [self] bound to the individual, [AttributeError] on [x],
    since the coordinates are attributes of [self.location]. *)
Theorem pressure_failures_in_order (self : Individual) (location0 : Location)
    (infectious_rate : R) :
  get_infection_pressure (method_globals notebook_globals) self location0
                         infectious_rate
    = Raise (NameError "sqrt")
  /\ get_infection_pressure
       (method_globals (("sqrt", PyRealFun sqrt) :: notebook_globals))
       self location0 infectious_rate
    = Raise (NameError "self")
  /\ get_infection_pressure
       (method_globals (("sqrt", PyRealFun sqrt)
                          :: ("self", PyIndividual self) :: notebook_globals))
       self location0 infectious_rate
    = Raise (AttributeError "x").
Proof. repeat split. Qed.

(** ** Cell 3: proportions of a population column *)

Lemma fold_left_add_shift (l : list Z) (a : Z) :
  fold_left Z.add l a = (a + fold_left Z.add l 0)%Z.
Proof.
  revert a. induction l as [| v rest IH]; intros a.
  - simpl. lia.
  - simpl. rewrite (IH (a + v)%Z), (IH v). lia.
Qed.

Lemma total_cons (v : Z) (l : list Z) : total (v :: l) = (v + total l)%Z.
Proof.
  unfold total. simpl. apply fold_left_add_shift.
Qed.

Lemma total_nonneg (l : list Z) :
  Forall (fun v => (0 <= v)%Z) l -> (0 <= total l)%Z.
Proof.
  induction 1 as [| v rest Hv _ IH].
  - unfold total. simpl. lia.
  - rewrite total_cons. lia.
Qed.

Lemma entry_le_total (l : list Z) :
  Forall (fun v => (0 <= v)%Z) l -> Forall (fun v => (v <= total l)%Z) l.
Proof.
  induction 1 as [| v rest Hv Hrest IH].
  - constructor.
  - rewrite total_cons. pose proof (total_nonneg rest Hrest).
    constructor; [lia |].
    eapply Forall_impl; [| exact IH]. simpl. intros u Hu. lia.
Qed.

Lemma true_divide_nonzero (a t : Z) :
  t <> 0%Z -> true_divide a t = Finite (IZR a / IZR t).
Proof.
  intros Ht. unfold true_divide.
  destruct (Z.eqb_spec t 0); [contradiction | reflexivity].
Qed.

Lemma finite_sum_quotients (l : list Z) (t : Z) :
  t <> 0%Z ->
  finite_sum (map (fun p => true_divide p t) l) = Some (IZR (total l) / IZR t).
Proof.
  intros Ht. assert (Hr : IZR t <> 0) by (apply not_0_IZR; exact Ht).
  induction l as [| v rest IH].
  - simpl. f_equal. unfold total. simpl. field. exact Hr.
  - cbn [map finite_sum]. rewrite true_divide_nonzero by exact Ht.
    rewrite IH, total_cons, plus_IZR. f_equal. field. exact Hr.
Qed.

(** X22. When the populations are non-negative and their sum is positive,
    the proportions are numbers between 0 and 1, one per entry, and they
    sum to 1. *)
Theorem proportion_is_distribution (population : list Z) :
  Forall (fun p => (0 <= p)%Z) population ->
  (0 < total population)%Z ->
  exists rs : list R,
    proportion population = map Finite rs
    /\ List.length rs = List.length population
    /\ Forall (fun r => 0 <= r <= 1) rs
    /\ finite_sum (proportion population) = Some 1.
Proof.
  intros Hpos Ht.
  assert (Hz : total population <> 0%Z) by lia.
  assert (Hr : 0 < IZR (total population)) by (apply IZR_lt; exact Ht).
  exists (map (fun p => IZR p / IZR (total population)) population).
  split; [| split; [| split]].
  - unfold proportion. rewrite map_map. apply map_ext.
    intros p. apply true_divide_nonzero. exact Hz.
  - apply length_map.
  - apply Forall_map.
    pose proof (entry_le_total population Hpos) as Hle.
    rewrite Forall_forall in *. intros p Hin.
    specialize (Hpos p Hin). specialize (Hle p Hin).
    apply IZR_le in Hpos, Hle. split.
    + apply Rmult_le_pos; [lra | left; apply Rinv_0_lt_compat; lra].
    + apply Rmult_le_reg_r with (IZR (total population)); [lra |].
      unfold Rdiv. rewrite Rmult_assoc, Rinv_l by lra. lra.
  - unfold proportion. rewrite finite_sum_quotients by exact Hz.
    f_equal. field. lra.
Qed.

Lemma proportion_is_distribution_witness :
  exists rs : list R,
    proportion [8982; 2720; 1154]%Z = map Finite rs
    /\ List.length rs = List.length [8982; 2720; 1154]%Z
    /\ Forall (fun r => 0 <= r <= 1) rs
    /\ finite_sum (proportion [8982; 2720; 1154]%Z) = Some 1.
Proof.
  apply (proportion_is_distribution [8982; 2720; 1154]%Z).
  - repeat constructor; lia.
  - reflexivity.
Defined.

(** X23. When the populations sum to 0 the division does not raise, but
    no proportion is a number: each is an infinity or NaN, and they have
    no sum (unless the column is empty). *)
Theorem proportion_of_zero_total (population : list Z) :
  total population = 0%Z ->
  Forall (fun q => forall r : R, q <> Finite r) (proportion population)
  /\ (population <> [] -> finite_sum (proportion population) = None).
Proof.
  intros Ht. unfold proportion. rewrite Ht. split.
  - apply Forall_map. apply Forall_forall. intros p _ r.
    unfold true_divide. simpl. destruct (p =? 0)%Z; discriminate.
  - destruct population as [| p rest]; [congruence |].
    intros _. simpl. unfold true_divide. simpl.
    destruct (p =? 0)%Z; reflexivity.
Qed.

Lemma proportion_of_zero_total_witness :
  Forall (fun q => forall r : R, q <> Finite r) (proportion [5; -5]%Z)
  /\ ([5; -5]%Z <> [] -> finite_sum (proportion [5; -5]%Z) = None).
Proof.
  apply (proportion_of_zero_total [5; -5]%Z). reflexivity.
Defined.

Lemma total_scaled (k : Z) (l : list Z) :
  total (map (Z.mul k) l) = (k * total l)%Z.
Proof.
  induction l as [| v rest IH].
  - unfold total. simpl. lia.
  - cbn [map]. rewrite !total_cons, IH. lia.
Qed.

Lemma true_divide_scaled (k a t : Z) :
  (0 < k)%Z -> true_divide (k * a) (k * t) = true_divide a t.
Proof.
  intros Hk. unfold true_divide.
  destruct (Z.eqb_spec t 0) as [-> | Ht].
  - replace (k * 0)%Z with 0%Z by lia. cbn [Z.eqb].
    destruct (Z.eqb_spec a 0) as [-> | Ha].
    + replace (k * 0)%Z with 0%Z by lia. reflexivity.
    + destruct (Z.eqb_spec (k * a) 0) as [E | _]; [nia |].
      f_equal. destruct (Z.ltb_spec (k * a) 0), (Z.ltb_spec a 0);
        try reflexivity; nia.
  - destruct (Z.eqb_spec (k * t) 0) as [E | _]; [nia |].
    f_equal. rewrite !mult_IZR.
    assert (IZR k <> 0) by (apply not_0_IZR; lia).
    assert (IZR t <> 0) by (apply not_0_IZR; exact Ht).
    field. split; assumption.
Qed.

(** X24. The proportions do not depend on the unit of the counts:
    multiplying every population by the same positive integer leaves
    every proportion unchanged. *)
Theorem proportion_scale_invariant (k : Z) (population : list Z) :
  (0 < k)%Z ->
  proportion (map (Z.mul k) population) = proportion population.
Proof.
  intros Hk. unfold proportion.
  rewrite total_scaled, map_map. apply map_ext.
  intros p. apply true_divide_scaled. exact Hk.
Qed.

Lemma proportion_scale_invariant_witness :
  proportion (map (Z.mul 1000) [8982; 2720; 1154]%Z)
  = proportion [8982; 2720; 1154]%Z.
Proof.
  apply (proportion_scale_invariant 1000 [8982; 2720; 1154]%Z). reflexivity.
Defined.

(** ** Cell 4: merging age groups *)

Lemma has_column_app (df1 df2 : frame) (label : string) :
  has_column (df1 ++ df2)%list label
  = has_column df1 label || has_column df2 label.
Proof. unfold has_column. apply existsb_app. Qed.

Lemma frame_get_has_column (df : frame) (label : string) :
  has_column df label = true <-> exists col, frame_get df label = Found col.
Proof.
  induction df as [| [n col] rest IH]; simpl.
  - split; [discriminate | intros [col H]; discriminate].
  - destruct (n =? label); simpl.
    + split; [intros _; exists col; reflexivity | reflexivity].
    + exact IH.
Qed.

Lemma frame_get_missing (df : frame) (label : string) :
  has_column df label = false -> frame_get df label = KeyError [label].
Proof.
  induction df as [| [n col] rest IH]; simpl; [reflexivity |].
  destruct (n =? label); simpl; [discriminate | exact IH].
Qed.

Lemma frame_get_set_other (df : frame) (l l' : string) (col : list Z) :
  (l =? l') = false ->
  frame_get (frame_set df l col) l' = frame_get df l'.
Proof.
  intros Hne. unfold frame_set. destruct (has_column df l).
  - induction df as [| [n c] rest IH]; [reflexivity |].
    cbn [map fst]. destruct (n =? l) eqn:Hn.
    + apply String.eqb_eq in Hn. subst n.
      cbn [frame_get]. rewrite Hne. exact IH.
    + cbn [frame_get]. destruct (n =? l'); [reflexivity | exact IH].
  - induction df as [| [n c] rest IH].
    + simpl. rewrite Hne. reflexivity.
    + simpl. destruct (n =? l'); [reflexivity | exact IH].
Qed.

Lemma has_column_set (df : frame) (l l' : string) (col : list Z) :
  has_column (frame_set df l col) l' = has_column df l' || (l =? l').
Proof.
  unfold frame_set. destruct (has_column df l) eqn:Hl.
  - destruct (l =? l') eqn:Hll.
    + apply String.eqb_eq in Hll. subst l'. rewrite Hl. simpl.
      clear -Hl. induction df as [| [n c] rest IH]; [discriminate |].
      simpl in *. destruct (n =? l) eqn:Hn; simpl.
      * rewrite String.eqb_refl. reflexivity.
      * rewrite Hn. simpl. apply IH. exact Hl.
    + rewrite orb_false_r. clear Hl.
      induction df as [| [n c] rest IH]; [reflexivity |].
      simpl. destruct (n =? l) eqn:Hn; simpl.
      * apply String.eqb_eq in Hn. subst n. rewrite Hll. simpl. exact IH.
      * rewrite IH. reflexivity.
  - rewrite has_column_app. simpl. rewrite orb_false_r. reflexivity.
Qed.

(** What a successful [regroup] went through. *)
Lemma regroup_inv (df df' : frame) :
  regroup df = Found df' ->
  exists a b c d e : list Z,
    frame_get df "Age 5 to 7" = Found a
    /\ frame_get df "Age 8 to 9" = Found b
    /\ frame_get df "Age 15" = Found c
    /\ frame_get df "Age 16 to 17" = Found d
    /\ frame_get df "Age 18 to 19" = Found e
    /\ df' = filter
               (fun col => negb (existsb (String.eqb (fst col)) merged_columns))
               (frame_set (frame_set df "Age 5 to 9" (series_add a b))
                          "Age 15 to 19" (series_add (series_add c d) e)).
Proof.
  unfold regroup. intros H.
  destruct (frame_get df "Age 5 to 7") as [a |] eqn:Ha; [| discriminate].
  destruct (frame_get df "Age 8 to 9") as [b |] eqn:Hb; [| discriminate].
  cbn [lbind] in H.
  rewrite !frame_get_set_other in H by reflexivity.
  destruct (frame_get df "Age 15") as [c |] eqn:Hc; [| discriminate].
  destruct (frame_get df "Age 16 to 17") as [d |] eqn:Hd; [| discriminate].
  destruct (frame_get df "Age 18 to 19") as [e |] eqn:He; [| discriminate].
  cbn [lbind] in H. unfold frame_drop in H.
  destruct (filter _ merged_columns); [| discriminate].
  injection H as <-.
  exists a, b, c, d, e. repeat split.
Qed.

(** X25. [regroup] succeeds exactly on the tables that have the five
    columns it merges; on any other table it raises [KeyError]. *)
Theorem regroup_succeeds_iff_columns_present (df : frame) :
  (exists df' : frame, regroup df = Found df')
  <-> (forall l : string, In l merged_columns -> has_column df l = true).
Proof.
  split.
  - intros [df' H]. apply regroup_inv in H.
    destruct H as (a & b & c & d & e & Ha & Hb & Hc & Hd & He & _).
    intros l Hin. apply frame_get_has_column.
    simpl in Hin.
    destruct Hin as [<- | [<- | [<- | [<- | [<- | []]]]]]; eauto.
  - intros H.
    assert (H1 := H "Age 5 to 7" ltac:(simpl; tauto)).
    assert (H2 := H "Age 8 to 9" ltac:(simpl; tauto)).
    assert (H3 := H "Age 15" ltac:(simpl; tauto)).
    assert (H4 := H "Age 16 to 17" ltac:(simpl; tauto)).
    assert (H5 := H "Age 18 to 19" ltac:(simpl; tauto)).
    pose proof H1 as G1. pose proof H2 as G2. pose proof H3 as G3.
    pose proof H4 as G4. pose proof H5 as G5.
    apply frame_get_has_column in G1, G2, G3, G4, G5.
    destruct G1 as [a Ha], G2 as [b Hb], G3 as [c Hc], G4 as [d Hd],
      G5 as [e He].
    unfold regroup. rewrite Ha, Hb. cbn [lbind].
    rewrite !frame_get_set_other by reflexivity.
    rewrite Hc, Hd, He. cbn [lbind]. unfold frame_drop.
    cbn [merged_columns filter].
    rewrite !has_column_set, H1, H2, H3, H4, H5. cbn [orb negb].
    eexists. reflexivity.
Qed.

Lemma frame_get_In (df : frame) (label : string) (col : list Z) :
  frame_get df label = Found col -> In (label, col) df.
Proof.
  induction df as [| [n c] rest IH]; simpl; [discriminate |].
  destruct (n =? label) eqn:Hn.
  - intros H. injection H as <-. apply String.eqb_eq in Hn. subst n.
    left. reflexivity.
  - intros H. right. apply IH. exact H.
Qed.

Lemma wrap_int64_small (z : Z) :
  (- 2 ^ 63 <= z < 2 ^ 63)%Z -> wrap_int64 z = z.
Proof.
  intros Hz. unfold wrap_int64. rewrite Z.mod_small; lia.
Qed.

Lemma series_add_counts (M N : Z) (a : list Z) :
  (M + N <= 2 ^ 63)%Z ->
  forall b : list Z,
    List.length a = List.length b ->
    Forall (fun v => (0 <= v < M)%Z) a ->
    Forall (fun v => (0 <= v < N)%Z) b ->
    total (series_add a b) = (total a + total b)%Z
    /\ List.length (series_add a b) = List.length a
    /\ Forall (fun v => (0 <= v < M + N)%Z) (series_add a b).
Proof.
  intros HMN. induction a as [| u a' IH]; intros b Hlen Ha Hb.
  - destruct b; [| discriminate]. repeat split. constructor.
  - destruct b as [| v b']; [discriminate |].
    inversion Ha as [| ? ? Hu Ha']; subst.
    inversion Hb as [| ? ? Hv Hb']; subst.
    injection Hlen as Hlen.
    destruct (IH b' Hlen Ha' Hb') as (Ht & Hl & Hf).
    unfold series_add in *. cbn [combine map fst snd List.length].
    rewrite wrap_int64_small by lia.
    rewrite !total_cons, Ht, Hl.
    repeat split; [lia |].
    constructor; [lia | exact Hf].
Qed.

Lemma grand_total_app (df1 df2 : frame) :
  grand_total (df1 ++ df2)%list = (grand_total df1 + grand_total df2)%Z.
Proof.
  induction df1 as [| c rest IH]; simpl; [reflexivity |].
  unfold grand_total in *. simpl. rewrite IH. lia.
Qed.

Lemma grand_total_split (P : string * list Z -> bool) (df : frame) :
  grand_total df
  = (grand_total (filter P df)
     + grand_total (filter (fun c => negb (P c)) df))%Z.
Proof.
  induction df as [| c rest IH]; [reflexivity |].
  cbn [filter]. destruct (P c); cbn [negb];
    unfold grand_total in *; cbn [fold_right]; rewrite IH; lia.
Qed.

Lemma grand_total_filter_or (P Q : string * list Z -> bool) (df : frame) :
  (forall c, P c && Q c = false) ->
  grand_total (filter (fun c => P c || Q c) df)
  = (grand_total (filter P df) + grand_total (filter Q df))%Z.
Proof.
  intros Hdisj. induction df as [| c rest IH]; [reflexivity |].
  cbn [filter]. specialize (Hdisj c).
  destruct (P c), (Q c); try discriminate; cbn [orb];
    unfold grand_total in *; cbn [fold_right]; rewrite IH; lia.
Qed.

Lemma filter_label_absent (df : frame) (label : string) :
  ~ In label (map fst df) -> filter (fun c => fst c =? label) df = [].
Proof.
  induction df as [| [n c] rest IH]; [reflexivity |].
  simpl. intros Hnot. destruct (String.eqb_spec n label) as [-> | _].
  - exfalso. apply Hnot. left. reflexivity.
  - apply IH. intros Hin. apply Hnot. right. exact Hin.
Qed.

Lemma grand_total_one_column (df : frame) (label : string) (col : list Z) :
  NoDup (map fst df) ->
  frame_get df label = Found col ->
  grand_total (filter (fun c => fst c =? label) df) = total col.
Proof.
  induction df as [| [n c] rest IH]; [discriminate |].
  cbn [map fst]. intros Hnd Hget. inversion Hnd as [| ? ? Hnotin Hnd']; subst.
  cbn [frame_get] in Hget. cbn [filter fst].
  destruct (String.eqb_spec n label) as [-> | Hne].
  - injection Hget as <-. rewrite filter_label_absent by exact Hnotin.
    unfold grand_total. simpl. lia.
  - apply IH; assumption.
Qed.

Lemma grand_total_merged_columns (df : frame) (a b c d e : list Z) :
  NoDup (map fst df) ->
  frame_get df "Age 5 to 7" = Found a ->
  frame_get df "Age 8 to 9" = Found b ->
  frame_get df "Age 15" = Found c ->
  frame_get df "Age 16 to 17" = Found d ->
  frame_get df "Age 18 to 19" = Found e ->
  grand_total
    (filter (fun col => existsb (String.eqb (fst col)) merged_columns) df)
  = (total a + total b + total c + total d + total e)%Z.
Proof.
  intros Hnd Ha Hb Hc Hd He.
  rewrite (filter_ext _
    (fun col => (fst col =? "Age 5 to 7")
                || ((fst col =? "Age 8 to 9")
                    || ((fst col =? "Age 15")
                        || ((fst col =? "Age 16 to 17")
                            || (fst col =? "Age 18 to 19"))))))
    by (intros col; simpl; rewrite orb_false_r; reflexivity).
  rewrite grand_total_filter_or.
  2:{ intros col. destruct (String.eqb_spec (fst col) "Age 5 to 7") as [-> | _];
        reflexivity. }
  rewrite grand_total_filter_or.
  2:{ intros col. destruct (String.eqb_spec (fst col) "Age 8 to 9") as [-> | _];
        reflexivity. }
  rewrite grand_total_filter_or.
  2:{ intros col. destruct (String.eqb_spec (fst col) "Age 15") as [-> | _];
        reflexivity. }
  rewrite grand_total_filter_or.
  2:{ intros col.
      destruct (String.eqb_spec (fst col) "Age 16 to 17") as [-> | _];
        reflexivity. }
  rewrite (grand_total_one_column df _ a), (grand_total_one_column df _ b),
    (grand_total_one_column df _ c), (grand_total_one_column df _ d),
    (grand_total_one_column df _ e) by assumption.
  lia.
Qed.

(** What [regroup] returns on a table that does not yet have the two
    merged columns. *)
Lemma regroup_fresh (df df' : frame) :
  has_column df "Age 5 to 9" = false ->
  has_column df "Age 15 to 19" = false ->
  regroup df = Found df' ->
  exists a b c d e : list Z,
    frame_get df "Age 5 to 7" = Found a
    /\ frame_get df "Age 8 to 9" = Found b
    /\ frame_get df "Age 15" = Found c
    /\ frame_get df "Age 16 to 17" = Found d
    /\ frame_get df "Age 18 to 19" = Found e
    /\ df' = (filter
                (fun col =>
                   negb (existsb (String.eqb (fst col)) merged_columns)) df
              ++ [("Age 5 to 9", series_add a b);
                  ("Age 15 to 19", series_add (series_add c d) e)])%list.
Proof.
  intros H1 H2 H. apply regroup_inv in H.
  destruct H as (a & b & c & d & e & Ha & Hb & Hc & Hd & He & ->).
  exists a, b, c, d, e. repeat (split; [assumption |]).
  unfold frame_set at 2. rewrite H1.
  unfold frame_set. rewrite has_column_app, H2. cbn [has_column existsb fst].
  replace ("Age 5 to 9" =? "Age 15 to 19") with false by reflexivity.
  cbn [orb]. rewrite !filter_app. cbn. rewrite <- app_assoc. reflexivity.
Qed.

Lemma has_column_kept (df : frame) (labels : list string) (l : string) :
  In l labels ->
  has_column
    (filter (fun col => negb (existsb (String.eqb (fst col)) labels)) df) l
  = false.
Proof.
  intros Hin. induction df as [| [n c] rest IH]; [reflexivity |].
  cbn [filter fst].
  destruct (existsb (String.eqb n) labels) eqn:Hex; cbn [negb].
  - exact IH.
  - unfold has_column in *. cbn [existsb fst]. rewrite IH.
    destruct (String.eqb_spec n l) as [-> | _]; [| reflexivity].
    exfalso. assert (Htrue : existsb (String.eqb l) labels = true).
    { apply existsb_exists. exists l. split; [exact Hin |].
      apply String.eqb_refl. }
    congruence.
Qed.

(** X26. On a table that has no column ["Age 5 to 9"] or ["Age 15 to 19"]
    yet, a successful [regroup] returns the columns it does not merge, in
    their order, followed by the two merged columns, ["Age 5 to 9"] then
    ["Age 15 to 19"], each the element-wise sum of its parts; none of the
    five merged labels is a column of the result. *)
Theorem regroup_appends_merged_columns (df df' : frame) :
  has_column df "Age 5 to 9" = false ->
  has_column df "Age 15 to 19" = false ->
  regroup df = Found df' ->
  exists (kept : frame) (a b c d e : list Z),
    kept = filter
             (fun col => negb (existsb (String.eqb (fst col)) merged_columns))
             df
    /\ frame_get df "Age 5 to 7" = Found a
    /\ frame_get df "Age 8 to 9" = Found b
    /\ frame_get df "Age 15" = Found c
    /\ frame_get df "Age 16 to 17" = Found d
    /\ frame_get df "Age 18 to 19" = Found e
    /\ df' = (kept ++ [("Age 5 to 9", series_add a b);
                       ("Age 15 to 19", series_add (series_add c d) e)])%list
    /\ (forall l : string, In l merged_columns -> has_column df' l = false).
Proof.
  intros H1 H2 H.
  destruct (regroup_fresh df df' H1 H2 H)
    as (a & b & c & d & e & Ha & Hb & Hc & Hd & He & ->).
  eexists. exists a, b, c, d, e.
  split; [reflexivity |]. repeat (split; [assumption |]).
  split; [reflexivity |].
  intros l Hin. rewrite has_column_app, has_column_kept by exact Hin.
  simpl in Hin.
  destruct Hin as [<- | [<- | [<- | [<- | [<- | []]]]]]; reflexivity.
Qed.

Lemma regroup_appends_merged_columns_witness :
  exists (kept : frame) (a b c d e : list Z),
    kept = filter
             (fun col => negb (existsb (String.eqb (fst col)) merged_columns))
             sample_table
    /\ frame_get sample_table "Age 5 to 7" = Found a
    /\ frame_get sample_table "Age 8 to 9" = Found b
    /\ frame_get sample_table "Age 15" = Found c
    /\ frame_get sample_table "Age 16 to 17" = Found d
    /\ frame_get sample_table "Age 18 to 19" = Found e
    /\ sample_regrouped
       = (kept ++ [("Age 5 to 9", series_add a b);
                   ("Age 15 to 19", series_add (series_add c d) e)])%list
    /\ (forall l : string,
           In l merged_columns -> has_column sample_regrouped l = false).
Proof.
  apply (regroup_appends_merged_columns sample_table sample_regrouped);
    reflexivity.
Defined.

(** X27. On a table of counts below [2^61] with distinct column labels
    and no column ["Age 5 to 9"] or ["Age 15 to 19"] yet, [regroup]
    conserves the number of people: the entries of the result add up to
    what the entries of the input add up to. *)
Theorem regroup_conserves_total (n : nat) (df df' : frame) :
  NoDup (map fst df) ->
  has_column df "Age 5 to 9" = false ->
  has_column df "Age 15 to 19" = false ->
  counts_table n df ->
  regroup df = Found df' ->
  grand_total df' = grand_total df.
Proof.
  intros Hnd H1 H2 Htab H.
  destruct (regroup_fresh df df' H1 H2 H)
    as (a & b & c & d & e & Ha & Hb & Hc & Hd & He & ->).
  unfold counts_table in Htab. rewrite Forall_forall in Htab.
  destruct (Htab _ (frame_get_In _ _ _ Ha)) as [La Ra].
  destruct (Htab _ (frame_get_In _ _ _ Hb)) as [Lb Rb].
  destruct (Htab _ (frame_get_In _ _ _ Hc)) as [Lc Rc].
  destruct (Htab _ (frame_get_In _ _ _ Hd)) as [Ld Rd].
  destruct (Htab _ (frame_get_In _ _ _ He)) as [Le Re].
  cbn [snd] in *.
  destruct (series_add_counts (2 ^ 61) (2 ^ 61) a ltac:(lia) b
              ltac:(congruence) Ra Rb) as (Tab & _ & _).
  destruct (series_add_counts (2 ^ 61) (2 ^ 61) c ltac:(lia) d
              ltac:(congruence) Rc Rd) as (Tcd & Lcd & Rcd).
  destruct (series_add_counts (2 ^ 61 + 2 ^ 61) (2 ^ 61) (series_add c d)
              ltac:(lia) e ltac:(congruence) Rcd Re) as (Tcde & _ & _).
  rewrite grand_total_app.
  pose proof (grand_total_split
                (fun col => existsb (String.eqb (fst col)) merged_columns) df)
    as Hsplit.
  rewrite (grand_total_merged_columns df a b c d e) in Hsplit by assumption.
  unfold grand_total at 2. cbn [fold_right snd].
  rewrite Tab, Tcde, Tcd. lia.
Qed.

Lemma regroup_conserves_total_witness :
  grand_total sample_regrouped = grand_total sample_table.
Proof.
  apply (regroup_conserves_total 2 sample_table sample_regrouped).
  - repeat (constructor;
            [simpl; intros Hin;
             repeat (destruct Hin as [Hin | Hin]; [discriminate |]);
             exact Hin |]).
    constructor.
  - reflexivity.
  - reflexivity.
  - unfold counts_table, sample_table.
    repeat (constructor; [split; [reflexivity | repeat constructor; lia] |]).
    constructor.
  - reflexivity.
Defined.

(** ** Individuals created with the default arguments *)

(** X28. An Individual created with the default arguments, whatever its
    [infection_radius], is neither infected, symptomatic nor dead: adding
    it to the list of a population leaves the three counts unchanged. *)
Theorem default_individual_adds_nothing (radius : R) (i : Individual)
    (loc : Location) (n : Z) (a : option (list pyfloat))
    (l : list Individual) :
  Individual_default radius = Ok i ->
  let p := mkPopulation loc n l a in
  let p' := mkPopulation loc n (l ++ [i]) a in
  fst (get_infected_count p') = fst (get_infected_count p)
  /\ fst (get_has_symptom_count p') = fst (get_has_symptom_count p)
  /\ fst (get_death_count p') = fst (get_death_count p).
Proof.
  intros Hi p p'. injection Hi as <-.
  rewrite !get_infected_count_run, !get_has_symptom_count_run,
    !get_death_count_run.
  cbn [fst individuals_list p p'].
  rewrite !number_of_app. unfold number_of at 2 4 6. cbn.
  repeat split; lia.
Qed.

Lemma default_individual_adds_nothing_witness :
  let newcomer := mkIndividual (mkLocation 0 0) 40 false None false None
                               false None (1 / 2) (1 / 2) (1 / 2) 2 in
  let p := mkPopulation origin 1 [carrier] None in
  let p' := mkPopulation origin 1 [carrier; newcomer] None in
  fst (get_infected_count p') = fst (get_infected_count p)
  /\ fst (get_has_symptom_count p') = fst (get_has_symptom_count p)
  /\ fst (get_death_count p') = fst (get_death_count p).
Proof.
  intros newcomer p p'.
  apply (default_individual_adds_nothing 2 newcomer origin 1 None [carrier]).
  reflexivity.
Defined.
